(** * The text embedding service (app_embedding_service.py)

    A shallow embedding of the request handlers of the FastAPI service:
    the pydantic models, the lifespan of the global [model], and the
    handlers [health_check], [generate_embeddings], [get_model_info] and
    [compute_similarity].  The pretrained model (the object returned by
    [SentenceTransformer(MODEL_PATH)]) and numpy's [@] are not part of the
    repository: they are values the handlers are given. *)

From Stdlib Require Import List String Ascii Bool ZArith NArith Uint63 Floats Lia.
Import ListNotations.

#[local] Set Warnings "-inexact-float,-register-all".
#[local] Open Scope Z_scope.

(** ** Python values *)

(** A Python [str] is a sequence of Unicode code points; [len] counts them
    and [s[:n]] keeps the first [n] of them. *)
Definition pystr : Type := list N.

(** A string literal of the source (all of them are ASCII). *)
Definition lit (s : string) : pystr :=
  List.map N_of_ascii (list_ascii_of_string s).

Definition len {A : Type} (l : list A) : nat := List.length l.

(** [s[:n]] *)
Definition slice_to (s : pystr) (n : nat) : pystr := firstn n s.

(** An exception raised by library code; [str(e)] is its message. *)
Inductive PyException : Type :=
| Exception (message : pystr).

Definition str_of (e : PyException) : pystr :=
  match e with Exception message => message end.

(** [raise HTTPException(status_code=..., detail=...)] *)
Record HTTPException : Type := mkHTTPException {
  status_code : Z;
  detail : pystr
}.

(** The dictionaries the handlers return without a response model. *)
Inductive value : Type :=
| VStr (s : pystr)
| VInt (z : Z)
| VFloat (f : float)
| VList (items : list value)
| VDict (items : list (string * value)).

(** [d[key]] on a dictionary literal (keys are distinct in the source). *)
Fixpoint dict_get (key : string) (items : list (string * value)) : option value :=
  match items with
  | [] => None
  | (k, v) :: rest => if String.eqb k key then Some v else dict_get key rest
  end.

(** [d[key]] on a returned value. *)
Definition value_get (key : string) (v : value) : option value :=
  match v with
  | VDict items => dict_get key items
  | _ => None
  end.

(** *** [round(x, ndigits)] on a float

    CPython rounds the exact binary value of [x] to [ndigits] decimal
    places, ties to even, and returns the double nearest to that decimal;
    nans, infinities and zeros round to themselves. *)

(** The integer nearest to [n / d], ties to even ([0 <= n], [0 < d]). *)
Definition div_half_even (n d : Z) : Z :=
  let q := n / d in
  let r := n mod d in
  match 2 * r ?= d with
  | Lt => q
  | Gt => q + 1
  | Eq => if Z.even q then q else q + 1
  end.

Definition round (x : float) (ndigits : nat) : float :=
  match Prim2SF x with
  | S754_finite s m e =>
      let p := 10 ^ Z.of_nat ndigits in
      let n := if 0 <=? e
               then Zpos m * 2 ^ e * p
               else div_half_even (Zpos m * p) (2 ^ (- e)) in
      match n with
      | Zpos k =>
          SF2Prim (SFdiv prec emax (S754_finite s k 0)
                                   (S754_finite false (Z.to_pos p) 0))
      | _ => SF2Prim (S754_zero s)
      end
  | _ => x
  end.

(** ** Pydantic models *)

(** [texts] carries [Field(..., min_items=1, max_items=100)], [normalize]
    defaults to [True]. *)
Record EmbedRequest : Type := mkEmbedRequest {
  texts : list pystr;
  normalize : bool
}.

(** The bounds declared on [EmbedRequest.texts]. *)
Definition EmbedRequest_valid (request : EmbedRequest) : bool :=
  ((1 <=? len (texts request)) && (len (texts request) <=? 100))%nat.

(** The decoded JSON body of POST /api/v1/embed: [texts] is required (the
    [...] of its [Field]), [normalize] may be left out. *)
Record EmbedBody : Type := mkEmbedBody {
  body_texts : option (list pystr);
  body_normalize : option bool
}.

(** The construction of an [EmbedRequest] from a body: pydantic fills the default of [normalize] and
    enforces [min_items=1] and [max_items=100]; [None] is a validation
    error, in which case no [EmbedRequest] exists. *)
Definition EmbedRequest_parse (body : EmbedBody) : option EmbedRequest :=
  match body_texts body with
  | None => None
  | Some given =>
      let request :=
        {| texts := given;
           normalize := match body_normalize body with
                        | Some flag => flag
                        | None => true
                        end |} in
      if EmbedRequest_valid request then Some request else None
  end.

(** [tokens: Optional[int] = None] *)
Record EmbeddingResult : Type := mkEmbeddingResult {
  text : pystr;
  embedding : list float;
  tokens : option Z
}.

(** The field [model] of the source is [response_model] here, the name
    [model] being the global of the service. *)
Record EmbedResponse : Type := mkEmbedResponse {
  embeddings : list EmbeddingResult;
  count : Z;
  dimension : Z;
  response_model : pystr;
  processing_time_ms : float
}.

Record HealthResponse : Type := mkHealthResponse {
  status : pystr;
  model_loaded : bool;
  model_name : pystr;
  embedding_dimension : Z;
  max_sequence_length : Z
}.

(** ** The capability and the global state *)

(** The object [SentenceTransformer(MODEL_PATH)] returns.  The handlers use
    its truth value ([if not model], [if model]; the class is a container
    with a [__len__]) and its method [encode], which returns one row per
    text or raises. *)
Record SentenceTransformer : Type := mkSentenceTransformer {
  truthy : bool;
  encode : list pystr -> bool -> PyException + list (list float)
}.

(** The module's globals: [model = None] until the lifespan sets it. *)
Record ServiceState : Type := mkServiceState {
  model : option SentenceTransformer
}.

(** [bool(model)] *)
Definition truth (m : option SentenceTransformer) : bool :=
  match m with
  | None => false
  | Some mdl => truthy mdl
  end.

(** [model is not None] *)
Definition is_not_None (m : option SentenceTransformer) : bool :=
  match m with
  | None => false
  | Some _ => true
  end.

(** ** Handlers as computations over the history of the process *)

(** What a handler has done, oldest first. *)
Inductive event : Type :=
| Guard (fired : bool)
    (* one [if ...: raise HTTPException(...)] has been evaluated *)
| Encode (sentences : list pystr) (normalize_embeddings : bool)
    (* [model.encode(...)] has been called *)
| Append (result : EmbeddingResult).
    (* [results.append(...)] has run *)

Definition history : Type := list event.

(** A computation reads and extends the history and either raises an [E]
    or returns an [A]. *)
Definition io (E A : Type) : Type := history -> (E + A) * history.

Definition ret {E A : Type} (a : A) : io E A :=
  fun h => (inr a, h).

Definition raise {E A : Type} (e : E) : io E A :=
  fun h => (inl e, h).

Definition bind {E A B : Type} (c : io E A) (k : A -> io E B) : io E B :=
  fun h =>
    match c h with
    | (inl e, h') => (inl e, h')
    | (inr a, h') => k a h'
    end.

Definition tell {E : Type} (ev : event) : io E unit :=
  fun h => (inr tt, h ++ [ev]).

(** The outcome of a library call that leaves no trace of its own. *)
Definition lift {E A : Type} (r : E + A) : io E A :=
  fun h => (r, h).

(** [try: body except Exception as e: handler] *)
Definition try_except {E E' A : Type}
    (body : io E A) (handler : E -> io E' A) : io E' A :=
  fun h =>
    match body h with
    | (inl e, h') => handler e h'
    | (inr a, h') => (inr a, h')
    end.

Declare Scope io_scope.
Delimit Scope io_scope with io.
Notation "x <- c ;; k" := (bind c (fun x => k))
  (at level 61, c at next level, right associativity) : io_scope.
Notation "c ;; k" := (bind c (fun _ => k))
  (at level 61, right associativity) : io_scope.

(** [if cond: raise HTTPException(...)] *)
Definition guard (cond : bool) (e : HTTPException) : io HTTPException unit :=
  (tell (Guard cond) ;; if cond then raise e else ret tt)%io.

(** The three guards of [generate_embeddings], none of them firing. *)
Definition passed : history := [Guard false; Guard false; Guard false].

(** The calls of [model.encode] recorded in a history. *)
Fixpoint encode_calls (h : history) : list (list pystr * bool) :=
  match h with
  | [] => []
  | Encode sentences n :: rest => (sentences, n) :: encode_calls rest
  | _ :: rest => encode_calls rest
  end.

(** [model.encode(sentences, normalize_embeddings=n, ...)] on the global. *)
Definition call_encode (m : option SentenceTransformer)
    (sentences : list pystr) (n : bool) : io PyException (list (list float)) :=
  match m with
  | None => raise (Exception (lit "'NoneType' object has no attribute 'encode'"))
  | Some mdl =>
      (tell (Encode sentences n) ;; lift (encode mdl sentences n))%io
  end.

(** [text[:100] + "..." if len(text) > 100 else text] *)
Definition truncate_label (text : pystr) : pystr :=
  if (100 <? len text)%nat then slice_to text 100 ++ lit "..." else text.

(** [EmbeddingResult(text=..., embedding=embedding.tolist())] for one pair
    of the [zip]; [tokens] is not passed and keeps its default. *)
Definition result_of (item : pystr * list float) : EmbeddingResult :=
  let (text, embedding) := item in
  {| text := truncate_label text;
     embedding := embedding;
     tokens := None |}.

(** The loop [for text, embedding in zip(request.texts, embeddings)]. *)
Fixpoint build_results {E : Type} (pairs : list (pystr * list float))
    (results : list EmbeddingResult) : io E (list EmbeddingResult) :=
  match pairs with
  | [] => ret results
  | item :: rest =>
      let result := result_of item in
      (tell (Append result) ;; build_results rest (results ++ [result]))%io
  end.

(** The results a client receives: those of the response, none on an error. *)
Definition returned_results (outcome : HTTPException + EmbedResponse)
    : list EmbeddingResult :=
  match outcome with
  | inl _ => []
  | inr response => embeddings response
  end.

(** The chained conditional of [compute_similarity]; [similarity > t] is
    [t < similarity]. *)
Definition interpretation (similarity : float) : pystr :=
  if (0.8 <? similarity)%float then lit "Very similar"
  else if (0.6 <? similarity)%float then lit "Similar"
  else if (0.4 <? similarity)%float then lit "Somewhat similar"
  else lit "Not very similar".

Definition MODEL_PATH : pystr := lit "minilm_full_dimension_models/minilm_model".

(** [model = None] at import. *)
Definition initial_state : ServiceState := {| model := None |}.

(** ** Test doubles, for running the handlers on concrete inputs *)

Definition float_of_nat (n : nat) : float :=
  PrimFloat.of_uint63 (Uint63.of_Z (Z.of_nat n)).

(** A clock that advances one second per recorded event. *)
Definition ticking_clock (h : history) : float := float_of_nat (len h).

(** A loaded model that maps a text to the row [[len(text), 1.0]]. *)
Definition length_model : SentenceTransformer :=
  {| truthy := true;
     encode := fun sentences _ =>
       inr (List.map (fun s => [float_of_nat (len s); 1%float]) sentences) |}.

(** A loaded model whose [encode] raises. *)
Definition failing_model : SentenceTransformer :=
  {| truthy := true;
     encode := fun _ _ => inl (Exception (lit "out of memory")) |}.

(** A loaded model that returns the rows [[1.0]] and [[0.8]] for two texts. *)
Definition boundary_model : SentenceTransformer :=
  {| truthy := true;
     encode := fun _ _ => inr [[1%float]; [0.8%float]] |}.

(** The dot product, accumulated left to right. *)
Definition dot (a b : list float) : PyException + float :=
  inr (fold_left (fun acc p => (acc + fst p * snd p)%float) (combine a b) 0%float).

Definition out_of_bounds (i size : nat) : PyException :=
  Exception (lit "index out of bounds").

Definition loaded_state : ServiceState := {| model := Some length_model |}.

Definition failing_state : ServiceState := {| model := Some failing_model |}.

Definition boundary_state : ServiceState := {| model := Some boundary_model |}.

Definition two_texts : EmbedRequest :=
  {| texts := [lit "hello"; lit "embedding"]; normalize := true |}.

(** A request of [n] one-letter texts. *)
Definition request_of_size (n : nat) : EmbedRequest :=
  {| texts := repeat (lit "a") n; normalize := true |}.

(** A text of 101 characters. *)
Definition long_text : pystr := repeat 97%N 101.

Definition long_request : EmbedRequest :=
  {| texts := [long_text; lit "short"]; normalize := false |}.

(** A loaded model that returns a single row whatever it is given. *)
Definition one_row_model : SentenceTransformer :=
  {| truthy := true;
     encode := fun _ _ => inr [[0.5%float; 0.5%float]] |}.

Definition one_row_state : ServiceState := {| model := Some one_row_model |}.

(** A loaded model that returns the rows [[1.0]] and [[0.80004]]. *)
Definition near_boundary_model : SentenceTransformer :=
  {| truthy := true;
     encode := fun _ _ => inr [[1%float]; [0.80004%float]] |}.

Definition near_boundary_state : ServiceState :=
  {| model := Some near_boundary_model |}.

(** A loaded model one of whose rows holds a nan. *)
Definition nan_model : SentenceTransformer :=
  {| truthy := true;
     encode := fun _ _ => inr [[nan]; [1%float]] |}.

Definition nan_state : ServiceState := {| model := Some nan_model |}.

(** A model that is set but falsy (a container without modules). *)
Definition empty_model : SentenceTransformer :=
  {| truthy := false;
     encode := fun _ _ => inr [] |}.

Definition empty_model_state : ServiceState := {| model := Some empty_model |}.

(** [SentenceTransformer(path)] finding [length_model] at any path. *)
Definition load_length_model (path : pystr) : PyException + SentenceTransformer :=
  inr length_model.

Section Service.

(** [time.time()] after a given history. *)
Variable wall : history -> float.

(** [SentenceTransformer(path)] *)
Variable load : pystr -> PyException + SentenceTransformer.

(** numpy: [a @ b] on two rows, and the [IndexError] of [rows[i]]. *)
Variable matmul : list float -> list float -> PyException + float.
Variable index_error : nat -> nat -> PyException.

Definition time_time {E : Type} : io E float :=
  fun h => (inr (wall h), h).

(** [rows[i]] *)
Definition getitem (rows : list (list float)) (i : nat)
    : io PyException (list float) :=
  match nth_error rows i with
  | Some row => ret row
  | None => raise (index_error i (len rows))
  end.

(** *** Startup and shutdown *)

(** The part of [lifespan] before [yield]: a failure of the load
    propagates and leaves the global as it was. *)
Definition lifespan_startup (st : ServiceState) : PyException + ServiceState :=
  match load MODEL_PATH with
  | inl e => inl e
  | inr mdl => inr {| model := Some mdl |}
  end.

(** The part of [lifespan] after [yield]. *)
Definition lifespan_shutdown (st : ServiceState) : ServiceState :=
  {| model := None |}.

(** *** GET /health *)

Definition health_check (st : ServiceState) : HealthResponse :=
  {| status := if truth (model st) then lit "healthy" else lit "unhealthy";
     model_loaded := is_not_None (model st);
     model_name := lit "sentence-transformers/all-MiniLM-L6-v2";
     embedding_dimension := 384;
     max_sequence_length := 256 |}.

(** *** POST /api/v1/embed *)

Definition generate_embeddings (st : ServiceState) (request : EmbedRequest)
    : io HTTPException EmbedResponse :=
  (guard (negb (truth (model st)))
     (mkHTTPException 503 (lit "Model not loaded")) ;;
   guard (len (texts request) =? 0)%nat
     (mkHTTPException 400 (lit "No texts provided")) ;;
   guard (100 <? len (texts request))%nat
     (mkHTTPException 400
        (lit "Maximum 100 texts per request. Use batch processing for larger sets.")) ;;
   start_time <- time_time ;;
   try_except
     (embeddings <- call_encode (model st) (texts request) (normalize request) ;;
      results <- build_results (combine (texts request) embeddings) [] ;;
      now <- time_time ;;
      let processing_time := ((now - start_time) * 1000)%float in
      ret {| embeddings := results;
             count := Z.of_nat (len results);
             dimension := 384;
             response_model := lit "sentence-transformers/all-MiniLM-L6-v2";
             processing_time_ms := round processing_time 2 |})
     (fun e =>
        raise (mkHTTPException 500
                 (lit "Embedding generation failed: " ++ str_of e))))%io.

(** *** GET /api/v1/model-info *)

Definition model_info : value :=
  VDict
    [ ("model_name"%string, VStr (lit "sentence-transformers/all-MiniLM-L6-v2"));
      ("model_type"%string, VStr (lit "Sentence Transformer"));
      ("base_model"%string, VStr (lit "nreimers/MiniLM-L6-H384-uncased"));
      ("embedding_dimension"%string, VInt 384);
      ("max_sequence_length"%string, VInt 256);
      ("max_input_length"%string, VStr (lit "~512 words"));
      ("normalization"%string, VStr (lit "L2 normalization recommended"));
      ("training_data"%string,
        VDict
          [ ("total_pairs"%string, VStr (lit "1.17 billion sentence pairs"));
            ("datasets"%string,
              VList
                [ VStr (lit "Reddit comments (726M)");
                  VStr (lit "S2ORC citations (116M)");
                  VStr (lit "WikiAnswers (77M)");
                  VStr (lit "PAQ Q&A (64M)");
                  VStr (lit "StackExchange (68M)");
                  VStr (lit "MS MARCO (9M)");
                  VStr (lit "and 24 more datasets") ]) ]);
      ("use_cases"%string,
        VList
          [ VStr (lit "Semantic search");
            VStr (lit "Text similarity");
            VStr (lit "Clustering");
            VStr (lit "Information retrieval");
            VStr (lit "Duplicate detection");
            VStr (lit "Feature extraction") ]);
      ("performance"%string,
        VDict
          [ ("speed"%string, VStr (lit "~1000 sentences/sec on CPU"));
            ("quality"%string, VStr (lit "High semantic understanding"));
            ("domain"%string, VStr (lit "General purpose (not domain-specific)")) ]) ].

Definition get_model_info (st : ServiceState) : io HTTPException value :=
  (guard (negb (truth (model st)))
     (mkHTTPException 503 (lit "Model not loaded")) ;;
   ret model_info)%io.

(** *** POST /api/v1/similarity *)

Definition compute_similarity (st : ServiceState) (text1 text2 : pystr)
    : io HTTPException value :=
  (guard (negb (truth (model st)))
     (mkHTTPException 503 (lit "Model not loaded")) ;;
   try_except
     (embeddings <- call_encode (model st) [text1; text2] true ;;
      row0 <- getitem embeddings 0 ;;
      row1 <- getitem embeddings 1 ;;
      similarity <- lift (matmul row0 row1) ;;
      ret (VDict
             [ ("text1"%string, VStr (truncate_label text1));
               ("text2"%string, VStr (truncate_label text2));
               ("similarity"%string, VFloat (round similarity 4));
               ("interpretation"%string, VStr (interpretation similarity)) ]))
     (fun e =>
        raise (mkHTTPException 500
                 (lit "Similarity computation failed: " ++ str_of e))))%io.

(** The exception the [try] block of [compute_similarity] ends with, if
    any, given the outcome of [encode]: the one [encode] raised, the
    IndexError of [embeddings[0]] or [embeddings[1]], or the one [@]
    raised. *)
Definition similarity_failure (outcome : PyException + list (list float))
    : option PyException :=
  match outcome with
  | inl exn => Some exn
  | inr [] => Some (index_error 0 0)
  | inr [_] => Some (index_error 1 1)
  | inr (row0 :: row1 :: _) =>
      match matmul row0 row1 with
      | inl exn => Some exn
      | inr _ => None
      end
  end.

End Service.

(** *** The route of the embed endpoint *)

(** What the client of a route receives: the answer of the framework to a
    body that does not validate against the model of the route (422, the
    handler is not called), the HTTPException the handler raised, or what
    the handler returned (200). *)
Inductive RouteResponse (A : Type) : Type :=
| Unprocessable
| Raised (e : HTTPException)
| Returned (a : A).

Arguments Unprocessable {A}.
Arguments Raised {A} e.
Arguments Returned {A} a.

Definition response_status {A : Type} (r : RouteResponse A) : Z :=
  match r with
  | Unprocessable => 422
  | Raised e => status_code e
  | Returned _ => 200
  end.

(** [@app.post("/api/v1/embed")] on [generate_embeddings(request:
    EmbedRequest)]: the request is built from the body before the handler
    is called. *)
Definition post_embed (wall : history -> float) (st : ServiceState)
    (body : EmbedBody) (h : history)
    : RouteResponse EmbedResponse * history :=
  match EmbedRequest_parse body with
  | None => (Unprocessable, h)
  | Some request =>
      match generate_embeddings wall st request h with
      | (inl e, h') => (Raised e, h')
      | (inr response, h') => (Returned response, h')
      end
  end.

(** A body of [n] one-letter texts, [normalize] left out. *)
Definition body_of_size (n : nat) : EmbedBody :=
  {| body_texts := Some (repeat (lit "a") n); body_normalize := None |}.

(** * The installer (install_model_on_server.py)

    A script without functions: it prints, creates the directory, downloads
    the model and saves it.  No exception is caught, so the first one ends
    the run. *)

Definition MODEL_CACHE_DIR : pystr := lit "/opt/models/minilm".

Definition MODEL_NAME : pystr := lit "sentence-transformers/all-MiniLM-L6-v2".

(** What the script has done, oldest first. *)
Inductive install_event : Type :=
| Printed (line : pystr)
| Makedirs (path : pystr) (exist_ok : bool)
| Download (name : pystr)
| Save (path : pystr).

(** What the library calls of one run answer: [os.makedirs],
    [SentenceTransformer(name)] and [model.save(path)]; [None] is a normal
    return. *)
Record InstallRun : Type := mkInstallRun {
  os_makedirs : pystr -> bool -> option PyException;
  download : pystr -> PyException + SentenceTransformer;
  save : SentenceTransformer -> pystr -> option PyException
}.

(** ["="*80] *)
Definition rule : pystr := repeat 61%N 80.

(** The newline and the check mark of the messages. *)
Definition newline : pystr := [10%N].
Definition check_mark : pystr := [9989%N].

Definition installed_message : pystr :=
  newline ++ check_mark ++ lit " Model installed successfully!".

(** The prints before [os.makedirs]. *)
Definition install_banner : list install_event :=
  [ Printed rule;
    Printed (lit "Installing MiniLM Model on Server");
    Printed rule;
    Printed (newline ++ lit "Model: " ++ MODEL_NAME);
    Printed (lit "Installation directory: " ++ MODEL_CACHE_DIR);
    Printed (newline
           ++ lit "This is a ONE-TIME setup. The model will be cached permanently."
           ++ newline) ].

(** The prints after [model.save]. *)
Definition install_report : list install_event :=
  [ Printed installed_message;
    Printed (lit "   Location: " ++ MODEL_CACHE_DIR);
    Printed (lit "   Size: ~90MB");
    Printed (newline ++ lit "You can now deploy your app without model files.");
    Printed rule ].

(** The script: the exception that ended the run, if any, and what was done. *)
Definition install_model_on_server (run : InstallRun)
    : option PyException * list install_event :=
  let log := install_banner ++ [Makedirs MODEL_CACHE_DIR true] in
  match os_makedirs run MODEL_CACHE_DIR true with
  | Some e => (Some e, log)
  | None =>
      let log :=
        log ++ [Printed (lit "Downloading model from HuggingFace...");
                Download MODEL_NAME] in
      match download run MODEL_NAME with
      | inl e => (Some e, log)
      | inr mdl =>
          let log := log ++ [Save MODEL_CACHE_DIR] in
          match save run mdl MODEL_CACHE_DIR with
          | Some e => (Some e, log)
          | None => (None, log ++ install_report)
          end
      end
  end.

(** Equality of events, and the test that in a log every event satisfying
    [later] comes after an occurrence of [earlier]. *)
Fixpoint pystr_eqb (a b : pystr) : bool :=
  match a, b with
  | [], [] => true
  | x :: a', y :: b' => N.eqb x y && pystr_eqb a' b'
  | _, _ => false
  end.

Definition install_event_eqb (a b : install_event) : bool :=
  match a, b with
  | Printed x, Printed y => pystr_eqb x y
  | Makedirs x f, Makedirs y g => pystr_eqb x y && Bool.eqb f g
  | Download x, Download y => pystr_eqb x y
  | Save x, Save y => pystr_eqb x y
  | _, _ => false
  end.

Definition is_download (e : install_event) : bool :=
  match e with Download _ => true | _ => false end.

Definition is_save (e : install_event) : bool :=
  match e with Save _ => true | _ => false end.

Fixpoint each_preceded (earlier : install_event)
    (later : install_event -> bool) (seen : bool)
    (log : list install_event) : bool :=
  match log with
  | [] => true
  | e :: rest =>
      (negb (later e) || seen)
      && each_preceded earlier later (seen || install_event_eqb earlier e) rest
  end.

(** A run in which every library call succeeds, and one without network. *)
Definition good_run : InstallRun :=
  {| os_makedirs := fun _ _ => None;
     download := fun _ => inr length_model;
     save := fun _ _ => None |}.

(** [SentenceTransformer(path)] when a model is stored in the directory of
    the installer and nowhere else, and when none is stored at all. *)
Definition load_from_install_directory (path : pystr)
    : PyException + SentenceTransformer :=
  if list_eq_dec N.eq_dec path MODEL_CACHE_DIR
  then inr length_model
  else inl (Exception (lit "path not found")).

Definition load_nothing (path : pystr) : PyException + SentenceTransformer :=
  inl (Exception (lit "path not found")).

Definition offline_run : InstallRun :=
  {| os_makedirs := fun _ _ => None;
     download := fun _ => inl (Exception (lit "connection error"));
     save := fun _ _ => None |}.

(** * Properties *)

(** ** The model of [round] agrees with CPython on sample values *)

Example round_2675 : round 2.675%float 2 = 2.67%float.
Proof. reflexivity. Qed.

Example round_0125 : round 0.125%float 2 = 0.12%float.
Proof. reflexivity. Qed.

Example round_0375 : round 0.375%float 2 = 0.38%float.
Proof. reflexivity. Qed.

Example round_1005 : round 1.005%float 2 = 1%float.
Proof. reflexivity. Qed.

Example round_large : round 90071992547409.93%float 2 = 90071992547409.94%float.
Proof. reflexivity. Qed.

Example round_integral : round 1e22%float 2 = 1e22%float.
Proof. reflexivity. Qed.

Example round_denormal : round 5e-324%float 2 = 0%float.
Proof. reflexivity. Qed.

Example round_negative : round (-0.001)%float 2 = (-0)%float.
Proof. reflexivity. Qed.

Example round_four_places : round 0.73455%float 4 = 0.7346%float.
Proof. reflexivity. Qed.

(** ** Histories *)

Lemma encode_calls_app (h h' : history) :
  encode_calls (h ++ h') = encode_calls h ++ encode_calls h'.
Proof.
  induction h as [| ev h IH]; simpl; [reflexivity |].
  destruct ev; simpl; rewrite IH; reflexivity.
Qed.

Lemma encode_calls_appends (results : list EmbeddingResult) :
  encode_calls (List.map Append results) = [].
Proof. induction results; simpl; auto. Qed.

(** ** The loop that builds the results *)

Lemma build_results_run {E : Type} (pairs : list (pystr * list float)) :
  forall (results : list EmbeddingResult) (h : history),
    @build_results E pairs results h =
      (inr (results ++ List.map result_of pairs),
       h ++ List.map Append (List.map result_of pairs)).
Proof.
  induction pairs as [| item rest IH]; intros results h; simpl.
  - unfold ret. now rewrite !app_nil_r.
  - unfold bind, tell. rewrite IH. now rewrite <- !app_assoc.
Qed.

Lemma truncate_label_long (text : pystr) :
  (100 < len text)%nat -> truncate_label text = firstn 100 text ++ lit "...".
Proof.
  intros H. unfold truncate_label, slice_to.
  destruct (Nat.ltb_spec 100 (len text)); [reflexivity | lia].
Qed.

Lemma truncate_label_short (text : pystr) :
  (len text <= 100)%nat -> truncate_label text = text.
Proof.
  intros H. unfold truncate_label.
  destruct (Nat.ltb_spec 100 (len text)); [lia | reflexivity].
Qed.

Lemma nth_error_results (sentences : list pystr) (rows : list (list float)) :
  forall i t row,
    nth_error sentences i = Some t ->
    nth_error rows i = Some row ->
    nth_error (List.map result_of (combine sentences rows)) i =
      Some {| text := truncate_label t; embedding := row; tokens := None |}.
Proof.
  revert rows.
  induction sentences as [| s sentences IH]; intros rows i t row Ht Hrow.
  - destruct i; discriminate.
  - destruct rows as [| r rows]; [destruct i; discriminate |].
    destruct i as [| i]; simpl in *.
    + now inversion Ht; inversion Hrow.
    + now apply IH.
Qed.

Section Properties.

Variable wall : history -> float.
Variable load : pystr -> PyException + SentenceTransformer.
Variable matmul : list float -> list float -> PyException + float.
Variable index_error : nat -> nat -> PyException.

(** *** Running [generate_embeddings] *)

Lemma generate_embeddings_unloaded st request h :
  truth (model st) = false ->
  generate_embeddings wall st request h =
    (inl (mkHTTPException 503 (lit "Model not loaded")), h ++ [Guard true]).
Proof.
  intros Hm. unfold generate_embeddings, guard, bind, tell.
  rewrite Hm. reflexivity.
Qed.

Lemma generate_embeddings_empty st request h :
  truth (model st) = true ->
  len (texts request) = 0%nat ->
  generate_embeddings wall st request h =
    (inl (mkHTTPException 400 (lit "No texts provided")),
     h ++ [Guard false; Guard true]).
Proof.
  intros Hm Hlen. unfold generate_embeddings, guard, bind, tell.
  rewrite Hm, Hlen. simpl. now rewrite <- app_assoc.
Qed.

Lemma generate_embeddings_too_many st request h :
  truth (model st) = true ->
  (100 < len (texts request))%nat ->
  generate_embeddings wall st request h =
    (inl (mkHTTPException 400
            (lit "Maximum 100 texts per request. Use batch processing for larger sets.")),
     h ++ [Guard false; Guard false; Guard true]).
Proof.
  intros Hm Hlen. unfold generate_embeddings, guard, bind, tell.
  rewrite Hm.
  destruct (Nat.eqb_spec (len (texts request)) 0); [lia |].
  destruct (Nat.ltb_spec 100 (len (texts request))); [| lia].
  simpl. now rewrite <- !app_assoc.
Qed.

Lemma generate_embeddings_run st request h mdl :
  model st = Some mdl ->
  truthy mdl = true ->
  (1 <= len (texts request) <= 100)%nat ->
  generate_embeddings wall st request h =
    match encode mdl (texts request) (normalize request) with
    | inl e =>
        (inl (mkHTTPException 500
                (lit "Embedding generation failed: " ++ str_of e)),
         h ++ passed ++ [Encode (texts request) (normalize request)])
    | inr rows =>
        let results := List.map result_of (combine (texts request) rows) in
        let h' := h ++ passed ++ [Encode (texts request) (normalize request)]
                    ++ List.map Append results in
        (inr {| embeddings := results;
                count := Z.of_nat (len results);
                dimension := 384;
                response_model := lit "sentence-transformers/all-MiniLM-L6-v2";
                processing_time_ms :=
                  round ((wall h' - wall (h ++ passed)) * 1000)%float 2 |},
         h')
    end.
Proof.
  intros Hst Hm Hlen.
  unfold generate_embeddings, guard, bind, tell, try_except, time_time,
    call_encode, lift, ret, raise.
  rewrite Hst. simpl. rewrite Hm. simpl.
  destruct (Nat.eqb_spec (len (texts request)) 0); [lia |].
  destruct (Nat.ltb_spec 100 (len (texts request))); [lia |].
  simpl.
  destruct (encode mdl (texts request) (normalize request)) as [e | rows].
  - unfold passed. now rewrite <- !app_assoc.
  - rewrite build_results_run. simpl. unfold passed.
    rewrite <- !app_assoc. simpl. reflexivity.
Qed.

Lemma generate_embeddings_success st request h response :
  fst (generate_embeddings wall st request h) = inr response ->
  exists mdl rows,
    model st = Some mdl /\ truthy mdl = true /\
    (1 <= len (texts request) <= 100)%nat /\
    encode mdl (texts request) (normalize request) = inr rows.
Proof.
  intros Hrun.
  destruct (truth (model st)) eqn:Hm.
  2: { rewrite generate_embeddings_unloaded in Hrun by assumption.
       discriminate. }
  destruct (model st) as [mdl |] eqn:Hst; [| discriminate].
  simpl in Hm.
  assert (Htruth : truth (model st) = true) by now rewrite Hst.
  destruct (Nat.eq_dec (len (texts request)) 0) as [H0 | H0].
  { rewrite generate_embeddings_empty in Hrun by assumption. discriminate. }
  destruct (le_lt_dec (len (texts request)) 100) as [H100 | H100].
  2: { rewrite generate_embeddings_too_many in Hrun by assumption.
       discriminate. }
  rewrite (generate_embeddings_run st request h mdl) in Hrun
    by (auto; lia).
  destruct (encode mdl (texts request) (normalize request)) as [e | rows] eqn:He;
    [discriminate |].
  exists mdl, rows. repeat split; auto; lia.
Qed.

(** *** Running [compute_similarity] *)

Lemma compute_similarity_run st text1 text2 h mdl rows row0 row1 score :
  model st = Some mdl ->
  truthy mdl = true ->
  encode mdl [text1; text2] true = inr rows ->
  nth_error rows 0 = Some row0 ->
  nth_error rows 1 = Some row1 ->
  matmul row0 row1 = inr score ->
  compute_similarity matmul index_error st text1 text2 h =
    (inr (VDict
            [ ("text1"%string, VStr (truncate_label text1));
              ("text2"%string, VStr (truncate_label text2));
              ("similarity"%string, VFloat (round score 4));
              ("interpretation"%string, VStr (interpretation score)) ]),
     h ++ [Guard false; Encode [text1; text2] true]).
Proof.
  intros Hst Hm He H0 H1 Hdot.
  destruct rows as [| r0 [| r1 rest]]; try discriminate.
  injection H0 as ->. injection H1 as ->.
  unfold compute_similarity, guard, bind, tell, try_except, call_encode,
    getitem, lift, ret, raise.
  rewrite Hst. simpl. rewrite Hm. simpl. rewrite He. simpl. rewrite Hdot.
  now rewrite <- app_assoc.
Qed.

Lemma compute_similarity_success st text1 text2 h d :
  fst (compute_similarity matmul index_error st text1 text2 h) = inr d ->
  exists mdl rows row0 row1 score,
    model st = Some mdl /\ truthy mdl = true /\
    encode mdl [text1; text2] true = inr rows /\
    nth_error rows 0 = Some row0 /\
    nth_error rows 1 = Some row1 /\
    matmul row0 row1 = inr score.
Proof.
  unfold compute_similarity, guard, bind, tell, try_except, call_encode,
    getitem, lift, ret, raise.
  destruct (model st) as [mdl |]; simpl; [| intros H; discriminate H].
  destruct (truthy mdl) eqn:Hm; simpl; [| intros H; discriminate H].
  destruct (encode mdl [text1; text2] true) as [e | rows] eqn:He;
    [intros H; discriminate H |].
  destruct rows as [| row0 [| row1 rest]]; simpl;
    try (intros H; discriminate H).
  destruct (matmul row0 row1) as [e | score] eqn:Hdot;
    [intros H; discriminate H |].
  intros _. exists mdl, (row0 :: row1 :: rest), row0, row1, score.
  repeat split; auto.
Qed.

(** *** The lifespan of the global *)

Lemma initial_state_unloaded : model initial_state = None.
Proof. reflexivity. Qed.

Lemma startup_loads st mdl :
  load MODEL_PATH = inr mdl ->
  lifespan_startup load st = inr {| model := Some mdl |}.
Proof. intros H. unfold lifespan_startup. now rewrite H. Qed.

Lemma startup_failure_propagates st e :
  load MODEL_PATH = inl e -> lifespan_startup load st = inl e.
Proof. intros H. unfold lifespan_startup. now rewrite H. Qed.

Lemma shutdown_unloads st : model (lifespan_shutdown st) = None.
Proof. reflexivity. Qed.

(** A request within the declared bounds of [EmbedRequest] is never
    answered 400 or 503 by a loaded service. *)
Lemma valid_request_passes_guards st request h e :
  truth (model st) = true ->
  EmbedRequest_valid request = true ->
  fst (generate_embeddings wall st request h) = inl e ->
  status_code e = 500.
Proof.
  intros Hm Hvalid.
  unfold EmbedRequest_valid in Hvalid.
  apply andb_true_iff in Hvalid. destruct Hvalid as [Hlo Hhi].
  apply Nat.leb_le in Hlo, Hhi.
  destruct (model st) as [mdl |] eqn:Hst; [| discriminate].
  rewrite (generate_embeddings_run st request h mdl) by (auto; lia).
  destruct (encode mdl (texts request) (normalize request));
    simpl; intros [= <-]; reflexivity.
Qed.

(** *** The claims *)

(** C1: a valid request of N texts (1 <= N <= 100) on which [encode]
    succeeds with one row per text gets a response of exactly N results,
    the i-th one pairing the (label of the) i-th text with the i-th row,
    and [count] is N. *)
Theorem embed_response_in_order st request h mdl rows :
  model st = Some mdl ->
  truthy mdl = true ->
  (1 <= len (texts request) <= 100)%nat ->
  encode mdl (texts request) (normalize request) = inr rows ->
  len rows = len (texts request) ->
  exists response,
    fst (generate_embeddings wall st request h) = inr response /\
    len (embeddings response) = len (texts request) /\
    count response = Z.of_nat (len (texts request)) /\
    forall i t,
      nth_error (texts request) i = Some t ->
      exists row,
        nth_error rows i = Some row /\
        nth_error (embeddings response) i =
          Some {| text := truncate_label t; embedding := row; tokens := None |}.
Proof.
  intros Hst Hm Hlen He Hrows.
  rewrite (generate_embeddings_run st request h mdl) by assumption.
  rewrite He. cbn zeta. eexists. split; [reflexivity |]. simpl.
  assert (Hn : len (List.map result_of (combine (texts request) rows))
               = len (texts request)).
  { unfold len in *. rewrite length_map, length_combine. lia. }
  repeat split; [exact Hn | now rewrite Hn |].
  intros i t Ht.
  destruct (nth_error rows i) as [row |] eqn:Hrow.
  - exists row. split; [reflexivity |]. now apply nth_error_results.
  - apply nth_error_None in Hrow.
    assert (i < List.length (texts request))%nat
      by (apply nth_error_Some; congruence).
    unfold len in *. lia.
Qed.

(** The route on a body that validates is the handler on the request
    built from it. *)
Lemma post_embed_validated st body request h :
  EmbedRequest_parse body = Some request ->
  post_embed wall st body h =
    (match fst (generate_embeddings wall st request h) with
     | inl e => Raised e
     | inr response => Returned response
     end,
     snd (generate_embeddings wall st request h)).
Proof.
  intros Hparse. unfold post_embed. rewrite Hparse.
  now destruct (generate_embeddings wall st request h) as [[e | response] h'].
Qed.

Lemma EmbedRequest_parse_valid body request :
  EmbedRequest_parse body = Some request ->
  EmbedRequest_valid request = true /\
  body_texts body = Some (texts request).
Proof.
  unfold EmbedRequest_parse.
  destruct (body_texts body) as [given |]; [| discriminate].
  destruct (EmbedRequest_valid _) eqn:Hvalid; [| discriminate].
  intros [= <-]. split; [exact Hvalid | reflexivity].
Qed.

Lemma EmbedRequest_parse_out_of_bounds body given :
  body_texts body = Some given ->
  (len given = 0%nat \/ 100 < len given)%nat ->
  EmbedRequest_parse body = None.
Proof.
  intros Hbody Hlen. unfold EmbedRequest_parse. rewrite Hbody.
  unfold EmbedRequest_valid. cbn [texts].
  destruct (Nat.leb_spec 1 (len given)), (Nat.leb_spec (len given) 100);
    cbn [andb]; try reflexivity; lia.
Qed.

(** The handler answers neither of its 400s to a request within the
    declared bounds. *)
Lemma validated_request_never_400 st request h e :
  EmbedRequest_valid request = true ->
  fst (generate_embeddings wall st request h) = inl e ->
  status_code e <> 400.
Proof.
  intros Hvalid Hrun.
  destruct (truth (model st)) eqn:Hm.
  - rewrite (valid_request_passes_guards st request h e Hm Hvalid Hrun).
    discriminate.
  - rewrite generate_embeddings_unloaded in Hrun by assumption.
    injection Hrun as <-. discriminate.
Qed.


(** C3: the interpretation returned by the similarity utility is chosen
    by strict comparisons taken in order: score > 0.8 gives "Very similar",
    else score > 0.6 gives "Similar", else score > 0.4 gives "Somewhat
    similar", else "Not very similar"; the scores 0.8, 0.6 and 0.4
    themselves fall into the lower bucket. *)
Theorem similarity_interpretation_thresholds
    st text1 text2 h mdl rows row0 row1 score :
  model st = Some mdl ->
  truthy mdl = true ->
  encode mdl [text1; text2] true = inr rows ->
  nth_error rows 0 = Some row0 ->
  nth_error rows 1 = Some row1 ->
  matmul row0 row1 = inr score ->
  exists items bucket,
    fst (compute_similarity matmul index_error st text1 text2 h)
      = inr (VDict items) /\
    dict_get "interpretation" items = Some (VStr bucket) /\
    ((0.8 <? score)%float = true -> bucket = lit "Very similar") /\
    ((0.8 <? score)%float = false -> (0.6 <? score)%float = true ->
       bucket = lit "Similar") /\
    ((0.8 <? score)%float = false -> (0.6 <? score)%float = false ->
     (0.4 <? score)%float = true -> bucket = lit "Somewhat similar") /\
    ((0.8 <? score)%float = false -> (0.6 <? score)%float = false ->
     (0.4 <? score)%float = false -> bucket = lit "Not very similar") /\
    (score = 0.8%float -> bucket = lit "Similar") /\
    (score = 0.6%float -> bucket = lit "Somewhat similar") /\
    (score = 0.4%float -> bucket = lit "Not very similar").
Proof.
  intros Hst Hm He H0 H1 Hdot.
  rewrite (compute_similarity_run st text1 text2 h mdl rows row0 row1 score)
    by assumption.
  eexists. exists (interpretation score).
  split; [reflexivity |]. split; [reflexivity |].
  unfold interpretation.
  repeat split; intros; subst;
    repeat match goal with H : _ = _ |- _ => rewrite H end; reflexivity.
Qed.

(** C4: in the response to a valid request, the label of a text longer
    than 100 characters is its first 100 characters followed by "...",
    the label of any other text is the text itself, and the vector paired
    with the label is the row [encode] returned for the text when called,
    once, on the texts of the request as they were sent. *)
Theorem label_truncated_vector_from_full_text st request h mdl rows :
  model st = Some mdl ->
  truthy mdl = true ->
  (1 <= len (texts request) <= 100)%nat ->
  encode mdl (texts request) (normalize request) = inr rows ->
  len rows = len (texts request) ->
  exists response,
    fst (generate_embeddings wall st request h) = inr response /\
    encode_calls (snd (generate_embeddings wall st request h)) =
      encode_calls h ++ [(texts request, normalize request)] /\
    forall i t,
      nth_error (texts request) i = Some t ->
      exists result,
        nth_error (embeddings response) i = Some result /\
        ((100 < len t)%nat -> text result = firstn 100 t ++ lit "...") /\
        ((len t <= 100)%nat -> text result = t) /\
        nth_error rows i = Some (embedding result).
Proof.
  intros Hst Hm Hlen He Hrows.
  rewrite (generate_embeddings_run st request h mdl) by assumption.
  rewrite He. cbn zeta. eexists. split; [reflexivity |]. split.
  { unfold snd. rewrite !encode_calls_app, encode_calls_appends. reflexivity. }
  intros i t Ht. simpl.
  destruct (nth_error rows i) as [row |] eqn:Hrow.
  - eexists. split; [exact (nth_error_results _ _ _ _ _ Ht Hrow) |]. simpl.
    repeat split; auto using truncate_label_long, truncate_label_short.
  - apply nth_error_None in Hrow.
    assert (i < List.length (texts request))%nat
      by (apply nth_error_Some; congruence).
    unfold len in *. lia.
Qed.

(** C5: when the call of [encode] raises, the handler raises an
    HTTPException of status 500 whose detail ends with the message of the
    exception, and the client receives no result: a batch yields either
    none of its results or, when [encode] returns one row per text, all
    of them. *)
Theorem capability_failure_is_500 st request h mdl :
  model st = Some mdl ->
  truthy mdl = true ->
  (1 <= len (texts request) <= 100)%nat ->
  let out := generate_embeddings wall st request h in
  (forall e,
     encode mdl (texts request) (normalize request) = inl e ->
     fst out = inl (mkHTTPException 500
                      (lit "Embedding generation failed: " ++ str_of e)) /\
     returned_results (fst out) = []) /\
  ((forall rows,
      encode mdl (texts request) (normalize request) = inr rows ->
      len rows = len (texts request)) ->
   len (returned_results (fst out)) = 0%nat \/
   len (returned_results (fst out)) = len (texts request)).
Proof.
  intros Hst Hm Hlen out. subst out.
  rewrite (generate_embeddings_run st request h mdl) by assumption.
  destruct (encode mdl (texts request) (normalize request)) as [e | rows].
  - split; [intros e' [= <-]; split; reflexivity | intros _; now left].
  - split; [intros e' He'; discriminate He' |].
    intros Hrows. right. simpl. specialize (Hrows rows eq_refl).
    unfold len in *. rewrite length_map, length_combine. lia.
Qed.

(** C6: while the global [model] is None, GET /health reports
    [model_loaded = False] and POST /api/v1/embed raises an HTTPException
    of status 503 without a call of [encode]. *)
Theorem unloaded_health_and_embed st request h :
  model st = None ->
  model_loaded (health_check st) = false /\
  fst (generate_embeddings wall st request h)
    = inl (mkHTTPException 503 (lit "Model not loaded")) /\
  encode_calls (snd (generate_embeddings wall st request h)) = encode_calls h.
Proof.
  intros Hst.
  rewrite generate_embeddings_unloaded by now rewrite Hst.
  unfold health_check. simpl. rewrite Hst. repeat split.
  rewrite encode_calls_app. apply app_nil_r.
Qed.

(** C7, as amended: in a successful response [processing_time_ms] is the
    difference, in milliseconds rounded to 2 decimal places, between the
    clock read once the results have all been appended and the clock read
    after the guards: the measured interval holds the call of [encode]
    and the building of the results, and neither the guards nor the
    construction of the response. *)
Theorem processing_time_interval st request h response :
  fst (generate_embeddings wall st request h) = inr response ->
  let h' := snd (generate_embeddings wall st request h) in
  h' = h ++ passed ++ [Encode (texts request) (normalize request)]
         ++ List.map Append (embeddings response) /\
  processing_time_ms response =
    round ((wall h' - wall (h ++ passed)) * 1000)%float 2.
Proof.
  intros Hrun.
  destruct (generate_embeddings_success st request h response Hrun)
    as (mdl & rows & Hst & Hm & Hlen & He).
  revert Hrun.
  rewrite (generate_embeddings_run st request h mdl) by assumption.
  rewrite He. cbn zeta. simpl. intros [= <-]. simpl. split; reflexivity.
Qed.

(** C9: no result of a successful response carries a token count. *)
Theorem tokens_always_absent st request h response :
  fst (generate_embeddings wall st request h) = inr response ->
  Forall (fun result => tokens result = None) (embeddings response).
Proof.
  intros Hrun.
  destruct (generate_embeddings_success st request h response Hrun)
    as (mdl & rows & Hst & Hm & Hlen & He).
  revert Hrun.
  rewrite (generate_embeddings_run st request h mdl) by assumption.
  rewrite He. cbn zeta. simpl. intros [= <-]. simpl.
  apply Forall_forall. intros result Hin.
  apply in_map_iff in Hin. destruct Hin as ([t row] & <- & _). reflexivity.
Qed.

(** C10: in a successful answer of the similarity utility, [text1] and
    [text2] are the labels the embed endpoint would give the two inputs:
    the first 100 characters followed by "..." for an input longer than
    100 characters, the input itself otherwise. *)
Theorem similarity_texts_truncated st text1 text2 h d :
  fst (compute_similarity matmul index_error st text1 text2 h) = inr d ->
  exists items label1 label2,
    d = VDict items /\
    dict_get "text1" items = Some (VStr label1) /\
    dict_get "text2" items = Some (VStr label2) /\
    label1 = text (result_of (text1, [])) /\
    label2 = text (result_of (text2, [])) /\
    ((100 < len text1)%nat -> label1 = firstn 100 text1 ++ lit "...") /\
    ((len text1 <= 100)%nat -> label1 = text1) /\
    ((100 < len text2)%nat -> label2 = firstn 100 text2 ++ lit "...") /\
    ((len text2 <= 100)%nat -> label2 = text2).
Proof.
  intros Hrun.
  destruct (compute_similarity_success st text1 text2 h d Hrun)
    as (mdl & rows & row0 & row1 & score & Hst & Hm & He & H0 & H1 & Hdot).
  revert Hrun.
  rewrite (compute_similarity_run st text1 text2 h mdl rows row0 row1 score)
    by assumption.
  simpl. intros [= <-].
  eexists. exists (truncate_label text1), (truncate_label text2).
  repeat split; auto using truncate_label_long, truncate_label_short.
Qed.

End Properties.

(** C8, as amended: GET /api/v1/model-info returns the constant document
    whenever the global [model] is truthy, and raises an HTTPException of
    status 503 otherwise; in neither case is [encode] called. *)
Theorem model_info_guarded st h :
  get_model_info st h =
    if truth (model st)
    then (inr model_info, h ++ [Guard false])
    else (inl (mkHTTPException 503 (lit "Model not loaded")), h ++ [Guard true]).
Proof.
  unfold get_model_info, guard, bind, tell, ret, raise.
  destruct (truth (model st)); reflexivity.
Qed.

(** ** The claims on concrete requests *)

Lemma embed_response_in_order_witness :
  exists response,
    fst (generate_embeddings ticking_clock loaded_state two_texts []) = inr response /\
    len (embeddings response) = 2%nat /\
    count response = 2 /\
    nth_error (embeddings response) 1 =
      Some {| text := lit "embedding";
              embedding := [9%float; 1%float];
              tokens := None |}.
Proof.
  assert (Hb : (1 <= len (texts two_texts) <= 100)%nat) by (cbv; lia).
  destruct (embed_response_in_order ticking_clock loaded_state two_texts []
              length_model [[5%float; 1%float]; [9%float; 1%float]]
              eq_refl eq_refl Hb eq_refl eq_refl)
    as (response & Hrun & Hlen & Hcount & Hnth).
  exists response. repeat split; try assumption.
  destruct (Hnth 1%nat (lit "embedding") eq_refl) as (row & Hrow & Hres).
  injection Hrow as <-. exact Hres.
Defined.



Lemma similarity_interpretation_thresholds_witness :
  exists items,
    fst (compute_similarity dot out_of_bounds boundary_state
           (lit "gift") (lit "present") []) = inr (VDict items) /\
    dict_get "interpretation" items = Some (VStr (lit "Similar")).
Proof.
  destruct (similarity_interpretation_thresholds dot out_of_bounds
              boundary_state (lit "gift") (lit "present") []
              boundary_model [[1%float]; [0.8%float]] [1%float] [0.8%float]
              0.8%float eq_refl eq_refl eq_refl eq_refl eq_refl eq_refl)
    as (items & bucket & Hrun & Hget & _ & _ & _ & _ & Hedge & _).
  exists items. split; [exact Hrun |].
  rewrite Hget, (Hedge eq_refl). reflexivity.
Defined.

Lemma label_truncated_vector_from_full_text_witness :
  exists response,
    fst (generate_embeddings ticking_clock loaded_state long_request [])
      = inr response /\
    nth_error (List.map text (embeddings response)) 0
      = Some (repeat 97%N 100 ++ lit "...") /\
    nth_error (List.map embedding (embeddings response)) 0
      = Some [101%float; 1%float].
Proof.
  assert (Hb : (1 <= len (texts long_request) <= 100)%nat) by (cbv; lia).
  destruct (label_truncated_vector_from_full_text ticking_clock loaded_state
              long_request [] length_model
              [[101%float; 1%float]; [5%float; 1%float]]
              eq_refl eq_refl Hb eq_refl eq_refl)
    as (response & Hrun & _ & Hall).
  exists response. split; [exact Hrun |].
  destruct (Hall 0%nat long_text eq_refl) as (result & Hres & Hlong & _ & Hrow).
  assert (Hl : (100 < len long_text)%nat) by (cbv; lia).
  rewrite !nth_error_map, Hres. simpl.
  rewrite (Hlong Hl). injection Hrow as <-. split; reflexivity.
Defined.

Lemma capability_failure_is_500_witness :
  fst (generate_embeddings ticking_clock failing_state two_texts [])
    = inl (mkHTTPException 500
             (lit "Embedding generation failed: out of memory")) /\
  returned_results
    (fst (generate_embeddings ticking_clock failing_state two_texts [])) = [].
Proof.
  assert (Hb : (1 <= len (texts two_texts) <= 100)%nat) by (cbv; lia).
  exact (proj1 (capability_failure_is_500 ticking_clock failing_state two_texts
                  [] failing_model eq_refl eq_refl Hb)
           (Exception (lit "out of memory")) eq_refl).
Defined.

Lemma unloaded_health_and_embed_witness :
  model_loaded (health_check (lifespan_shutdown loaded_state)) = false /\
  fst (generate_embeddings ticking_clock (lifespan_shutdown loaded_state)
         two_texts [])
    = inl (mkHTTPException 503 (lit "Model not loaded")) /\
  encode_calls
    (snd (generate_embeddings ticking_clock (lifespan_shutdown loaded_state)
            two_texts [])) = [].
Proof.
  exact (unloaded_health_and_embed ticking_clock
           (lifespan_shutdown loaded_state) two_texts [] eq_refl).
Defined.

(** C7, as stated, fails: with a clock that advances one second per event,
    a request of two texts is reported to have taken 3000 ms, the call of
    [encode] alone taking 1000 ms. *)
Lemma processing_time_covers_result_building :
  let before := passed in
  let after_call :=
    passed ++ [Encode (texts two_texts) (normalize two_texts)] in
  exists response,
    fst (generate_embeddings ticking_clock loaded_state two_texts [])
      = inr response /\
    processing_time_ms response = 3000%float /\
    round ((ticking_clock after_call - ticking_clock before) * 1000)%float 2
      = 1000%float /\
    processing_time_ms response <>
      round ((ticking_clock after_call - ticking_clock before) * 1000)%float 2.
Proof.
  eexists. split; [reflexivity |]. split; [reflexivity |].
  split; [reflexivity |].
  intros H. apply (f_equal (fun x => (x =? 1000)%float)) in H.
  vm_compute in H. discriminate H.
Qed.

Lemma processing_time_interval_witness :
  exists response,
    fst (generate_embeddings ticking_clock loaded_state two_texts [])
      = inr response /\
    processing_time_ms response =
      round ((ticking_clock
                (passed ++ [Encode (texts two_texts) (normalize two_texts)]
                   ++ List.map Append (embeddings response))
              - ticking_clock passed) * 1000)%float 2.
Proof.
  destruct (fst (generate_embeddings ticking_clock loaded_state two_texts []))
    as [e | response] eqn:Hrun; [discriminate Hrun |].
  exists response. split; [reflexivity |].
  destruct (processing_time_interval ticking_clock loaded_state two_texts []
              response Hrun) as [Hh Ht].
  rewrite Ht, Hh. reflexivity.
Defined.

(** C8, as stated, fails: before the model is loaded the endpoint answers
    503 and not the document. *)
Lemma model_info_depends_on_state :
  fst (get_model_info initial_state [])
    = inl (mkHTTPException 503 (lit "Model not loaded")) /\
  fst (get_model_info initial_state []) <> inr model_info /\
  fst (get_model_info initial_state []) <> fst (get_model_info loaded_state []).
Proof.
  repeat split; intros H; discriminate H.
Qed.

Lemma tokens_always_absent_witness :
  exists response,
    fst (generate_embeddings ticking_clock loaded_state two_texts [])
      = inr response /\
    Forall (fun result => tokens result = None) (embeddings response).
Proof.
  destruct (fst (generate_embeddings ticking_clock loaded_state two_texts []))
    as [e | response] eqn:Hrun; [discriminate Hrun |].
  exists response. split; [reflexivity |].
  exact (tokens_always_absent ticking_clock loaded_state two_texts []
           response Hrun).
Defined.

Lemma similarity_texts_truncated_witness :
  exists items,
    fst (compute_similarity dot out_of_bounds boundary_state
           long_text (lit "short") []) = inr (VDict items) /\
    dict_get "text1" items = Some (VStr (repeat 97%N 100 ++ lit "...")) /\
    dict_get "text2" items = Some (VStr (lit "short")).
Proof.
  destruct (fst (compute_similarity dot out_of_bounds boundary_state
                   long_text (lit "short") [])) as [e | d] eqn:Hrun;
    [discriminate Hrun |].
  destruct (similarity_texts_truncated dot out_of_bounds boundary_state
              long_text (lit "short") [] d Hrun)
    as (items & label1 & label2 & -> & H1 & H2 & _ & _ & Hlong & _ & _ & Hshort).
  exists items. split; [reflexivity |].
  assert (Hl : (100 < len long_text)%nat) by (cbv; lia).
  assert (Hs : (len (lit "short") <= 100)%nat) by (cbv; lia).
  rewrite H1, H2, (Hlong Hl), (Hshort Hs). split; reflexivity.
Defined.

(** * Further properties of the handlers *)

(** ** Labels *)

Lemma truncate_label_length (t : pystr) :
  len (truncate_label t) = if (100 <? len t)%nat then 103%nat else len t.
Proof.
  unfold truncate_label, slice_to, len.
  destruct (Nat.ltb_spec 100 (List.length t)) as [Hlong | Hshort];
    [| reflexivity].
  rewrite length_app, length_firstn.
  change (List.length (lit "...")) with 3%nat. lia.
Qed.

Lemma firstn_truncate_label (t : pystr) :
  firstn 100 (truncate_label t) = firstn 100 t.
Proof.
  unfold truncate_label, slice_to, len.
  destruct (Nat.ltb_spec 100 (List.length t)) as [Hlong | Hshort];
    [| reflexivity].
  rewrite firstn_app, length_firstn.
  replace (100 - Nat.min 100 (List.length t))%nat with 0%nat by lia.
  rewrite firstn_O, app_nil_r, firstn_firstn. reflexivity.
Qed.

(** ** Pairs of a [zip] *)

Lemma map_fst_combine {A B : Type} (l : list A) :
  forall l' : list B,
    List.map fst (combine l l') = firstn (List.length l') l.
Proof.
  induction l as [| a l IH]; intros [| b l']; simpl; try reflexivity.
  now rewrite IH.
Qed.

Lemma map_snd_combine {A B : Type} (l : list A) :
  forall l' : list B,
    List.map snd (combine l l') = firstn (List.length l) l'.
Proof.
  induction l as [| a l IH]; intros [| b l']; simpl; try reflexivity.
  now rewrite IH.
Qed.

Lemma text_result_of (item : pystr * list float) :
  text (result_of item) = truncate_label (fst item).
Proof. now destruct item. Qed.

Lemma embedding_result_of (item : pystr * list float) :
  embedding (result_of item) = snd item.
Proof. now destruct item. Qed.

Section Further.

Variable wall : history -> float.
Variable load : pystr -> PyException + SentenceTransformer.
Variable matmul : list float -> list float -> PyException + float.
Variable index_error : nat -> nat -> PyException.

(** ** POST /api/v1/embed *)

(** The bounds of [EmbedRequest] as the two guards test them. *)
Lemma EmbedRequest_valid_guards request :
  EmbedRequest_valid request =
    negb (len (texts request) =? 0)%nat && negb (100 <? len (texts request))%nat.
Proof.
  unfold EmbedRequest_valid.
  destruct (Nat.eqb_spec (len (texts request)) 0),
           (Nat.ltb_spec 100 (len (texts request))),
           (Nat.leb_spec 1 (len (texts request))),
           (Nat.leb_spec (len (texts request)) 100); simpl; auto; lia.
Qed.


(** X2: a loaded service answers 400 exactly to the requests outside the
    bounds declared on [EmbedRequest.texts]. *)
Theorem guards_agree_with_declared_bounds st request h :
  truth (model st) = true ->
  EmbedRequest_valid request = false <->
  exists e,
    fst (generate_embeddings wall st request h) = inl e /\ status_code e = 400.
Proof.
  intros Hm. split.
  - rewrite EmbedRequest_valid_guards. intros Hinvalid.
    destruct (Nat.eqb_spec (len (texts request)) 0) as [H0 | H0].
    + rewrite generate_embeddings_empty by assumption.
      eexists. split; reflexivity.
    + destruct (Nat.ltb_spec 100 (len (texts request))) as [H100 | H100];
        [| discriminate].
      rewrite generate_embeddings_too_many by assumption.
      eexists. split; reflexivity.
  - intros (e & Hrun & Hstatus).
    destruct (EmbedRequest_valid request) eqn:Hvalid; [| reflexivity].
    rewrite (valid_request_passes_guards wall st request h e Hm Hvalid Hrun)
      in Hstatus.
    discriminate.
Qed.

(** X3: one request makes at most one call of [encode]: exactly one, on the
    texts and the flag of the request as they were sent, when the global is
    truthy and the request is within the bounds; none otherwise. *)
Theorem embed_calls_encode_at_most_once st request h :
  encode_calls (snd (generate_embeddings wall st request h)) =
    encode_calls h ++
      (if truth (model st) && EmbedRequest_valid request
       then [(texts request, normalize request)]
       else []).
Proof.
  destruct (truth (model st)) eqn:Hm; simpl.
  2: { rewrite generate_embeddings_unloaded by assumption. simpl.
       now rewrite encode_calls_app. }
  rewrite EmbedRequest_valid_guards.
  destruct (Nat.eqb_spec (len (texts request)) 0) as [H0 | H0]; simpl.
  { rewrite generate_embeddings_empty by assumption. simpl.
    now rewrite encode_calls_app. }
  destruct (Nat.ltb_spec 100 (len (texts request))) as [H100 | H100]; simpl.
  { rewrite generate_embeddings_too_many by assumption. simpl.
    now rewrite encode_calls_app. }
  destruct (model st) as [mdl |] eqn:Hst; [| discriminate].
  rewrite (generate_embeddings_run wall st request h mdl) by (auto; lia).
  destruct (encode mdl (texts request) (normalize request));
    cbn zeta; unfold snd; rewrite !encode_calls_app; simpl;
    rewrite ?encode_calls_appends; reflexivity.
Qed.

(** X4: the handler pairs texts and rows up to the shorter of the two and
    does not compare their numbers: when [encode] returns k rows for N
    texts the response holds min(N, k) results, [count] is min(N, k), the
    vectors are the first rows as returned and the labels those of the
    first texts. *)
Theorem embed_pairs_up_to_shorter st request h mdl rows :
  model st = Some mdl ->
  truthy mdl = true ->
  (1 <= len (texts request) <= 100)%nat ->
  encode mdl (texts request) (normalize request) = inr rows ->
  exists response,
    fst (generate_embeddings wall st request h) = inr response /\
    len (embeddings response) = Nat.min (len (texts request)) (len rows) /\
    count response = Z.of_nat (Nat.min (len (texts request)) (len rows)) /\
    List.map embedding (embeddings response)
      = firstn (len (texts request)) rows /\
    List.map text (embeddings response)
      = List.map truncate_label (firstn (len rows) (texts request)).
Proof.
  intros Hst Hm Hlen He.
  rewrite (generate_embeddings_run wall st request h mdl) by assumption.
  rewrite He. cbn zeta. eexists. split; [reflexivity |]. simpl.
  assert (Hn : len (List.map result_of (combine (texts request) rows))
               = Nat.min (len (texts request)) (len rows)).
  { unfold len. now rewrite length_map, length_combine. }
  split; [exact Hn |]. split; [now rewrite Hn |]. split.
  - rewrite map_map.
    rewrite (map_ext _ snd) by apply embedding_result_of.
    apply map_snd_combine.
  - rewrite map_map.
    rewrite (map_ext _ (fun item => truncate_label (fst item)))
      by apply text_result_of.
    rewrite <- (map_map fst truncate_label). now rewrite map_fst_combine.
Qed.

(** X5: in every successful response [count] is the number of results
    returned, [dimension] is 384 whatever the length of the rows, and the
    model identifier is the constant of the source. *)
Theorem embed_response_invariants st request h response :
  fst (generate_embeddings wall st request h) = inr response ->
  count response = Z.of_nat (len (embeddings response)) /\
  dimension response = 384 /\
  response_model response = lit "sentence-transformers/all-MiniLM-L6-v2".
Proof.
  intros Hrun.
  destruct (generate_embeddings_success wall st request h response Hrun)
    as (mdl & rows & Hst & Hm & Hlen & He).
  revert Hrun.
  rewrite (generate_embeddings_run wall st request h mdl) by assumption.
  rewrite He. cbn zeta. simpl. intros [= <-]. simpl. auto.
Qed.

(** X6: every label of a successful response has at most 103 characters
    and starts with the first 100 characters of a text of the request. *)
Theorem embed_labels_bounded st request h response :
  fst (generate_embeddings wall st request h) = inr response ->
  Forall
    (fun result =>
       (len (text result) <= 103)%nat /\
       exists t, In t (texts request) /\
                 firstn 100 (text result) = firstn 100 t)
    (embeddings response).
Proof.
  intros Hrun.
  destruct (generate_embeddings_success wall st request h response Hrun)
    as (mdl & rows & Hst & Hm & Hlen & He).
  revert Hrun.
  rewrite (generate_embeddings_run wall st request h mdl) by assumption.
  rewrite He. cbn zeta. simpl. intros [= <-]. simpl.
  apply Forall_forall. intros result Hin.
  apply in_map_iff in Hin. destruct Hin as ([t row] & <- & Hin). simpl.
  split.
  - rewrite truncate_label_length.
    destruct (Nat.ltb_spec 100 (len t)); lia.
  - exists t. split; [now apply in_combine_l in Hin |].
    apply firstn_truncate_label.
Qed.

(** X7: for two texts longer than 100 characters the labels are equal
    exactly when the first 100 characters are: a label does not identify
    its text. *)
Theorem long_labels_collide (t1 t2 : pystr) :
  (100 < len t1)%nat ->
  (100 < len t2)%nat ->
  truncate_label t1 = truncate_label t2 <-> firstn 100 t1 = firstn 100 t2.
Proof.
  intros H1 H2.
  rewrite (truncate_label_long t1 H1), (truncate_label_long t2 H2).
  split; [apply app_inv_tail | now intros ->].
Qed.

(** X8: a label is a fixed point of the truncation: sent again as a text,
    it is returned as it is. *)
Theorem truncate_label_idempotent (t : pystr) :
  truncate_label (truncate_label t) = truncate_label t.
Proof.
  destruct (le_lt_dec (len t) 100) as [Hshort | Hlong].
  - now rewrite !(truncate_label_short t Hshort).
  - assert (Hlen : (100 < len (truncate_label t))%nat).
    { rewrite truncate_label_length.
      destruct (Nat.ltb_spec 100 (len t)); lia. }
    rewrite (truncate_label_long (truncate_label t) Hlen).
    rewrite firstn_truncate_label. symmetry. now apply truncate_label_long.
Qed.

(** ** POST /api/v1/similarity *)

Lemma compute_similarity_unloaded st text1 text2 h :
  truth (model st) = false ->
  compute_similarity matmul index_error st text1 text2 h =
    (inl (mkHTTPException 503 (lit "Model not loaded")), h ++ [Guard true]).
Proof.
  intros Hm. unfold compute_similarity, guard, bind, tell.
  rewrite Hm. reflexivity.
Qed.

Lemma compute_similarity_failure st text1 text2 h mdl exn :
  model st = Some mdl ->
  truthy mdl = true ->
  similarity_failure matmul index_error (encode mdl [text1; text2] true) = Some exn ->
  compute_similarity matmul index_error st text1 text2 h =
    (inl (mkHTTPException 500
            (lit "Similarity computation failed: " ++ str_of exn)),
     h ++ [Guard false; Encode [text1; text2] true]).
Proof.
  intros Hst Hm Hfail.
  unfold compute_similarity, guard, bind, tell, try_except, call_encode,
    getitem, lift, ret, raise.
  rewrite Hst. simpl. rewrite Hm. simpl.
  unfold similarity_failure in Hfail.
  destruct (encode mdl [text1; text2] true) as [e | [| row0 [| row1 rest]]];
    simpl.
  - injection Hfail as ->. now rewrite <- app_assoc.
  - injection Hfail as <-. now rewrite <- app_assoc.
  - injection Hfail as <-. now rewrite <- app_assoc.
  - destruct (matmul row0 row1) as [e | score]; [| discriminate].
    injection Hfail as ->. now rewrite <- app_assoc.
Qed.

(** X9: with the model loaded, the similarity utility answers 500
    "Similarity computation failed: ..." with the message of the exception
    when [encode] raises, when [encode] returns fewer than two rows (the
    IndexError of the missing row) and when the product of the two rows
    raises; no dictionary is returned. *)
Theorem similarity_failure_is_500 st text1 text2 h mdl :
  model st = Some mdl ->
  truthy mdl = true ->
  let out := fst (compute_similarity matmul index_error st text1 text2 h) in
  let failed exn :=
    out = inl (mkHTTPException 500
                 (lit "Similarity computation failed: " ++ str_of exn)) in
  (forall exn, encode mdl [text1; text2] true = inl exn -> failed exn) /\
  (forall rows,
     encode mdl [text1; text2] true = inr rows ->
     (len rows < 2)%nat ->
     failed (index_error (len rows) (len rows))) /\
  (forall row0 row1 rest exn,
     encode mdl [text1; text2] true = inr (row0 :: row1 :: rest) ->
     matmul row0 row1 = inl exn ->
     failed exn).
Proof.
  intros Hst Hm out failed. subst out failed. repeat split.
  - intros exn He.
    rewrite (compute_similarity_failure st text1 text2 h mdl exn); auto.
    now rewrite He.
  - intros rows He Hlen.
    rewrite (compute_similarity_failure st text1 text2 h mdl
               (index_error (len rows) (len rows))); auto.
    rewrite He.
    destruct rows as [| row0 [| row1 rest]]; simpl in *; auto; lia.
  - intros row0 row1 rest exn He Hdot.
    rewrite (compute_similarity_failure st text1 text2 h mdl exn); auto.
    rewrite He. simpl. now rewrite Hdot.
Qed.

(** X10: the similarity utility raises no other error than 503 "Model not
    loaded", when the global is not truthy, and 500 "Similarity computation
    failed: ...", when it is. *)
Theorem similarity_errors_classified st text1 text2 h e :
  fst (compute_similarity matmul index_error st text1 text2 h) = inl e ->
  (truth (model st) = false /\
   e = mkHTTPException 503 (lit "Model not loaded")) \/
  (truth (model st) = true /\
   exists exn,
     e = mkHTTPException 500
           (lit "Similarity computation failed: " ++ str_of exn)).
Proof.
  intros Hrun.
  destruct (truth (model st)) eqn:Htruth.
  2: { left. rewrite compute_similarity_unloaded in Hrun by assumption.
       injection Hrun as <-. auto. }
  right. split; [reflexivity |].
  destruct (model st) as [mdl |] eqn:Hst; [| discriminate].
  simpl in Htruth.
  destruct (similarity_failure matmul index_error (encode mdl [text1; text2] true))
    as [exn |] eqn:Hfail.
  - rewrite (compute_similarity_failure st text1 text2 h mdl exn) in Hrun
      by assumption.
    injection Hrun as <-. now exists exn.
  - unfold similarity_failure in Hfail.
    destruct (encode mdl [text1; text2] true)
      as [exn | [| row0 [| row1 rest]]] eqn:He; try discriminate.
    destruct (matmul row0 row1) as [exn | score] eqn:Hdot; [discriminate |].
    rewrite (compute_similarity_run matmul index_error st text1 text2 h mdl
               (row0 :: row1 :: rest) row0 row1 score) in Hrun by auto.
    discriminate.
Qed.

(** X11: the similarity utility calls [encode] once when the global is
    truthy, on the two texts in the order given and with
    [normalize_embeddings=True], and not at all otherwise. *)
Theorem similarity_calls_encode_normalized st text1 text2 h :
  encode_calls (snd (compute_similarity matmul index_error st text1 text2 h)) =
    encode_calls h ++
      (if truth (model st) then [([text1; text2], true)] else []).
Proof.
  destruct (truth (model st)) eqn:Htruth.
  2: { rewrite compute_similarity_unloaded by assumption. simpl.
       now rewrite encode_calls_app. }
  destruct (model st) as [mdl |] eqn:Hst; [| discriminate].
  simpl in Htruth.
  destruct (similarity_failure matmul index_error (encode mdl [text1; text2] true))
    as [exn |] eqn:Hfail.
  - rewrite (compute_similarity_failure st text1 text2 h mdl exn)
      by assumption.
    simpl. now rewrite encode_calls_app.
  - unfold similarity_failure in Hfail.
    destruct (encode mdl [text1; text2] true)
      as [exn | [| row0 [| row1 rest]]] eqn:He; try discriminate.
    destruct (matmul row0 row1) as [exn | score] eqn:Hdot; [discriminate |].
    rewrite (compute_similarity_run matmul index_error st text1 text2 h mdl
               (row0 :: row1 :: rest) row0 row1 score) by auto.
    simpl. now rewrite encode_calls_app.
Qed.

(** X12: the bucket is chosen on the score before it is rounded: a score
    above 0.8 that rounds to 0.8 is reported as similarity 0.8 with the
    interpretation "Very similar". *)
Theorem similarity_rounded_after_interpretation
    st text1 text2 h mdl rows row0 row1 score :
  model st = Some mdl ->
  truthy mdl = true ->
  encode mdl [text1; text2] true = inr rows ->
  nth_error rows 0 = Some row0 ->
  nth_error rows 1 = Some row1 ->
  matmul row0 row1 = inr score ->
  exists d,
    fst (compute_similarity matmul index_error st text1 text2 h) = inr d /\
    value_get "similarity" d = Some (VFloat (round score 4)) /\
    value_get "interpretation" d = Some (VStr (interpretation score)) /\
    ((0.8 <? score)%float = true ->
     round score 4 = 0.8%float ->
     value_get "similarity" d = Some (VFloat 0.8%float) /\
     value_get "interpretation" d = Some (VStr (lit "Very similar"))).
Proof.
  intros Hst Hm He H0 H1 Hdot.
  rewrite (compute_similarity_run matmul index_error st text1 text2 h mdl
             rows row0 row1 score) by assumption.
  eexists. split; [reflexivity |]. simpl.
  split; [reflexivity |]. split; [reflexivity |].
  intros Habove Hround. unfold interpretation.
  now rewrite Habove, Hround.
Qed.

(** X13: a score that is not a number compares below every threshold and
    is interpreted as "Not very similar". *)
Theorem similarity_of_nan st text1 text2 h mdl rows row0 row1 score :
  model st = Some mdl ->
  truthy mdl = true ->
  encode mdl [text1; text2] true = inr rows ->
  nth_error rows 0 = Some row0 ->
  nth_error rows 1 = Some row1 ->
  matmul row0 row1 = inr score ->
  is_nan score = true ->
  exists d,
    fst (compute_similarity matmul index_error st text1 text2 h) = inr d /\
    value_get "interpretation" d = Some (VStr (lit "Not very similar")).
Proof.
  intros Hst Hm He H0 H1 Hdot Hnan.
  rewrite (compute_similarity_run matmul index_error st text1 text2 h mdl
             rows row0 row1 score) by assumption.
  eexists. split; [reflexivity |]. simpl.
  assert (Hbelow : forall t, (t <? score)%float = false).
  { intros t. rewrite ltb_spec. unfold Prim2SF at 2. rewrite Hnan.
    unfold SFltb, SFcompare. now destruct (Prim2SF t). }
  unfold interpretation. now rewrite !Hbelow.
Qed.

(** ** GET /health *)

(** X14: /health answers in every state; its status is "healthy" exactly
    when the embed endpoint does not answer 503, a "healthy" status comes
    with [model_loaded = True], and [model_loaded = False] with the status
    "unhealthy". *)
Theorem health_reflects_availability st :
  (status (health_check st) = lit "healthy" <->
   forall request h e,
     fst (generate_embeddings wall st request h) = inl e ->
     status_code e <> 503) /\
  (status (health_check st) = lit "healthy" ->
   model_loaded (health_check st) = true) /\
  (model_loaded (health_check st) = false ->
   status (health_check st) = lit "unhealthy").
Proof.
  unfold health_check. simpl.
  destruct (truth (model st)) eqn:Htruth.
  - split; [split |].
    + intros _ request h e Hrun Hstatus.
      destruct (Nat.eq_dec (len (texts request)) 0) as [H0 | H0].
      { rewrite generate_embeddings_empty in Hrun by assumption.
        injection Hrun as <-. discriminate Hstatus. }
      destruct (le_lt_dec (len (texts request)) 100) as [H100 | H100].
      2: { rewrite generate_embeddings_too_many in Hrun by assumption.
           injection Hrun as <-. discriminate Hstatus. }
      destruct (model st) as [mdl |] eqn:Hst; [| discriminate].
      rewrite (generate_embeddings_run wall st request h mdl) in Hrun
        by (auto; lia).
      destruct (encode mdl (texts request) (normalize request));
        [| discriminate].
      injection Hrun as <-. discriminate Hstatus.
    + reflexivity.
    + destruct (model st); [| discriminate].
      split; [reflexivity | intros Hfalse; discriminate Hfalse].
  - split; [split |].
    + intros Heq. discriminate Heq.
    + intros Hnever. exfalso.
      apply (Hnever (mkEmbedRequest [] true) []
               (mkHTTPException 503 (lit "Model not loaded"))).
      * now rewrite generate_embeddings_unloaded.
      * reflexivity.
    + split; [intros Heq; discriminate Heq | reflexivity].
Qed.

(** ** The lifespan *)

Lemma generate_embeddings_unloaded_fst st request h :
  truth (model st) = false ->
  fst (generate_embeddings wall st request h)
    = inl (mkHTTPException 503 (lit "Model not loaded")).
Proof. intros Hm. now rewrite generate_embeddings_unloaded. Qed.

(** X15: a successful startup stores the model found at [MODEL_PATH],
    whatever the global held before; /health then reports it loaded, and
    the shutdown brings the service back to its initial state, in which the
    embed endpoint answers 503. *)
Theorem lifespan_round_trip st mdl :
  load MODEL_PATH = inr mdl ->
  exists started,
    lifespan_startup load st = inr started /\
    model started = Some mdl /\
    model_loaded (health_check started) = true /\
    lifespan_shutdown started = initial_state /\
    forall request h,
      fst (generate_embeddings wall (lifespan_shutdown started) request h)
        = inl (mkHTTPException 503 (lit "Model not loaded")).
Proof.
  intros Hload. unfold lifespan_startup. rewrite Hload.
  eexists. split; [reflexivity |].
  split; [reflexivity |]. split; [reflexivity |]. split; [reflexivity |].
  intros request h. now apply generate_embeddings_unloaded_fst.
Qed.

(** ** The constants of the endpoints *)

(** X16: the endpoints agree on the constants they report: the dimension
    of a successful embed response, the one of /health and the one of the
    model-info document are equal, and so are the model names and the
    maximal sequence lengths. *)
Theorem endpoints_agree_on_constants st request h response :
  fst (generate_embeddings wall st request h) = inr response ->
  dimension response = embedding_dimension (health_check st) /\
  value_get "embedding_dimension" model_info
    = Some (VInt (embedding_dimension (health_check st))) /\
  response_model response = model_name (health_check st) /\
  value_get "model_name" model_info
    = Some (VStr (model_name (health_check st))) /\
  value_get "max_sequence_length" model_info
    = Some (VInt (max_sequence_length (health_check st))).
Proof.
  intros Hrun.
  destruct (generate_embeddings_success wall st request h response Hrun)
    as (mdl & rows & Hst & Hm & Hlen & He).
  revert Hrun.
  rewrite (generate_embeddings_run wall st request h mdl) by assumption.
  rewrite He. cbn zeta. simpl. intros [= <-]. simpl. repeat split.
Qed.

End Further.

(** ** The installer *)

Lemma install_run_cases (run : InstallRun) :
  install_model_on_server run =
    match os_makedirs run MODEL_CACHE_DIR true,
          download run MODEL_NAME with
    | Some e, _ =>
        (Some e, install_banner ++ [Makedirs MODEL_CACHE_DIR true])
    | None, inl e =>
        (Some e,
         install_banner ++
           [Makedirs MODEL_CACHE_DIR true;
            Printed (lit "Downloading model from HuggingFace...");
            Download MODEL_NAME])
    | None, inr mdl =>
        let log :=
          install_banner ++
            [Makedirs MODEL_CACHE_DIR true;
             Printed (lit "Downloading model from HuggingFace...");
             Download MODEL_NAME;
             Save MODEL_CACHE_DIR] in
        match save run mdl MODEL_CACHE_DIR with
        | Some e => (Some e, log)
        | None => (None, log ++ install_report)
        end
    end.
Proof.
  unfold install_model_on_server.
  destruct (os_makedirs run MODEL_CACHE_DIR true); [reflexivity |].
  destruct (download run MODEL_NAME) as [e | mdl]; [reflexivity |].
  destruct (save run mdl MODEL_CACHE_DIR); reflexivity.
Qed.

Lemma pystr_eqb_eq (a : pystr) :
  forall b, pystr_eqb a b = true -> a = b.
Proof.
  induction a as [| x a IH]; intros [| y b] H; simpl in H;
    try discriminate; [reflexivity |].
  apply andb_true_iff in H. destruct H as [Hxy Hab].
  apply N.eqb_eq in Hxy. now rewrite Hxy, (IH b Hab).
Qed.

Lemma install_event_eqb_eq (a b : install_event) :
  install_event_eqb a b = true -> a = b.
Proof.
  destruct a, b; simpl; intros H; try discriminate.
  - now rewrite (pystr_eqb_eq _ _ H).
  - apply andb_true_iff in H. destruct H as [Hpath Hflag].
    apply Bool.eqb_prop in Hflag. now rewrite (pystr_eqb_eq _ _ Hpath), Hflag.
  - now rewrite (pystr_eqb_eq _ _ H).
  - now rewrite (pystr_eqb_eq _ _ H).
Qed.

Lemma each_preceded_sound earlier later (log : list install_event) :
  forall seen,
    each_preceded earlier later seen log = true ->
    forall before e after,
      log = before ++ e :: after ->
      later e = true ->
      seen = true \/ In earlier before.
Proof.
  induction log as [| a log IH]; intros seen Hall before e after Hlog Hlater.
  - destruct before; discriminate Hlog.
  - simpl in Hall. apply andb_true_iff in Hall. destruct Hall as [Hhead Hrest].
    destruct before as [| b before]; simpl in Hlog; injection Hlog as -> ->.
    + left. rewrite Hlater in Hhead. exact Hhead.
    + destruct (IH _ Hrest before e after eq_refl Hlater) as [Hseen | Hin].
      * apply orb_true_iff in Hseen. destruct Hseen as [Hseen | Hhere].
        -- now left.
        -- right. left. symmetry. now apply install_event_eqb_eq.
      * right. now right.
Qed.

(** X17: the installer prints "Model installed successfully!" exactly in
    the runs that end without an exception, which are those in which the
    directory could be created, the download succeeded and the save
    succeeded; it saves nowhere but in [MODEL_CACHE_DIR] and only a model
    it downloaded; it asks for the directory, with [exist_ok=True], in
    every run, also in those in which the download then fails; every
    download comes after the request for the directory, and every save
    after the download. *)
Theorem install_reports_what_happened (run : InstallRun) :
  let outcome := fst (install_model_on_server run) in
  let log := snd (install_model_on_server run) in
  (In (Printed installed_message) log <-> outcome = None) /\
  (outcome = None <->
   os_makedirs run MODEL_CACHE_DIR true = None /\
   exists mdl,
     download run MODEL_NAME = inr mdl /\
     save run mdl MODEL_CACHE_DIR = None) /\
  (forall path,
     In (Save path) log ->
     path = MODEL_CACHE_DIR /\
     os_makedirs run MODEL_CACHE_DIR true = None /\
     exists mdl, download run MODEL_NAME = inr mdl) /\
  In (Makedirs MODEL_CACHE_DIR true) log /\
  (forall before name after,
     log = before ++ Download name :: after ->
     In (Makedirs MODEL_CACHE_DIR true) before) /\
  (forall before path after,
     log = before ++ Save path :: after ->
     In (Download MODEL_NAME) before).
Proof.
  cbv zeta.
  assert (Hdownload :
    each_preceded (Makedirs MODEL_CACHE_DIR true) is_download false
      (snd (install_model_on_server run)) = true).
  { rewrite install_run_cases.
    destruct (os_makedirs run MODEL_CACHE_DIR true); [reflexivity |].
    destruct (download run MODEL_NAME) as [e | mdl]; [reflexivity |].
    cbv zeta. destruct (save run mdl MODEL_CACHE_DIR); reflexivity. }
  assert (Hsaved :
    each_preceded (Download MODEL_NAME) is_save false
      (snd (install_model_on_server run)) = true).
  { rewrite install_run_cases.
    destruct (os_makedirs run MODEL_CACHE_DIR true); [reflexivity |].
    destruct (download run MODEL_NAME) as [e | mdl]; [reflexivity |].
    cbv zeta. destruct (save run mdl MODEL_CACHE_DIR); reflexivity. }
  assert (Horder :
    (forall before name after,
       snd (install_model_on_server run) = before ++ Download name :: after ->
       In (Makedirs MODEL_CACHE_DIR true) before) /\
    (forall before path after,
       snd (install_model_on_server run) = before ++ Save path :: after ->
       In (Download MODEL_NAME) before)).
  { split.
    - intros before name after Hlog.
      destruct (each_preceded_sound _ _ _ _ Hdownload before (Download name)
                  after Hlog eq_refl) as [Hseen | Hin];
        [discriminate Hseen | exact Hin].
    - intros before path after Hlog.
      destruct (each_preceded_sound _ _ _ _ Hsaved before (Save path)
                  after Hlog eq_refl) as [Hseen | Hin];
        [discriminate Hseen | exact Hin]. }
  clear Hdownload Hsaved. revert Horder.
  rewrite install_run_cases.
  destruct (os_makedirs run MODEL_CACHE_DIR true) as [e |] eqn:Hmk.
  { cbn [fst snd]. intros Horder.
    split; [split; [intros H; cbv in H; intuition discriminate
                   | intros H; discriminate H] |].
    split; [split; [intros H; discriminate H
                   | intros [H _]; discriminate H] |].
    split; [intros path H; cbv in H; intuition discriminate |].
    split; [cbv; auto 10 | exact Horder]. }
  destruct (download run MODEL_NAME) as [e | mdl] eqn:Hdl.
  { cbn [fst snd]. intros Horder.
    split; [split; [intros H; cbv in H; intuition discriminate
                   | intros H; discriminate H] |].
    split; [split; [intros H; discriminate H
                   | intros (_ & mdl & H & _); discriminate H] |].
    split; [intros path H; cbv in H; intuition discriminate |].
    split; [cbv; auto 10 | exact Horder]. }
  cbv zeta.
  destruct (save run mdl MODEL_CACHE_DIR) as [e |] eqn:Hsave.
  { cbn [fst snd]. intros Horder.
    split; [split; [intros H; cbv in H; intuition discriminate
                   | intros H; discriminate H] |].
    split; [split; [intros H; discriminate H
                   | intros (_ & mdl' & [= <-] & H); congruence] |].
    split; [| split; [cbv; auto 10 | exact Horder]].
    intros path H. split; [| split; [reflexivity | now exists mdl]].
    cbv in H |- *. intuition congruence. }
  cbn [fst snd]. intros Horder.
  split; [split; [reflexivity | intros _; cbv; auto 15] |].
  split; [split; [intros _; split; [reflexivity | now exists mdl]
                 | reflexivity] |].
  split; [| split; [cbv; auto 10 | exact Horder]].
  intros path H. split; [| split; [reflexivity | now exists mdl]].
  cbv in H |- *. intuition congruence.
Qed.

(** X18: the directory the installer saves in is not the path the service
    loads from: two file systems that differ only in what is stored at
    [MODEL_CACHE_DIR] give the same startup. *)
Theorem startup_ignores_install_directory
    (load1 load2 : pystr -> PyException + SentenceTransformer) st :
  (forall path, path <> MODEL_CACHE_DIR -> load1 path = load2 path) ->
  lifespan_startup load1 st = lifespan_startup load2 st.
Proof.
  intros Hsame. unfold lifespan_startup.
  rewrite (Hsame MODEL_PATH); [reflexivity |].
  intros Heq. discriminate Heq.
Qed.

(** ** The further properties on concrete inputs *)


Lemma guards_agree_with_declared_bounds_witness :
  exists e,
    fst (generate_embeddings ticking_clock loaded_state (request_of_size 101) [])
      = inl e /\
    status_code e = 400.
Proof.
  exact (proj1 (guards_agree_with_declared_bounds ticking_clock loaded_state
                  (request_of_size 101) [] eq_refl) eq_refl).
Defined.

Lemma embed_pairs_up_to_shorter_witness :
  exists response,
    fst (generate_embeddings ticking_clock one_row_state two_texts [])
      = inr response /\
    len (embeddings response) = 1%nat /\
    count response = 1.
Proof.
  assert (Hb : (1 <= len (texts two_texts) <= 100)%nat) by (cbv; lia).
  destruct (embed_pairs_up_to_shorter ticking_clock one_row_state two_texts []
              one_row_model [[0.5%float; 0.5%float]] eq_refl eq_refl Hb eq_refl)
    as (response & Hrun & Hlen & Hcount & _).
  exists response. split; [exact Hrun |]. split; [exact Hlen | exact Hcount].
Defined.

Lemma embed_response_invariants_witness :
  exists response,
    fst (generate_embeddings ticking_clock loaded_state two_texts [])
      = inr response /\
    count response = Z.of_nat (len (embeddings response)) /\
    dimension response = 384 /\
    List.map (fun result => len (embedding result)) (embeddings response)
      = [2%nat; 2%nat].
Proof.
  destruct (fst (generate_embeddings ticking_clock loaded_state two_texts []))
    as [e | response] eqn:Hrun; [discriminate Hrun |].
  destruct (embed_response_invariants ticking_clock loaded_state two_texts []
              response Hrun) as (Hcount & Hdim & _).
  exists response. split; [reflexivity |].
  split; [exact Hcount |]. split; [exact Hdim |].
  injection Hrun as <-. reflexivity.
Defined.

Lemma embed_labels_bounded_witness :
  exists response,
    fst (generate_embeddings ticking_clock loaded_state long_request [])
      = inr response /\
    Forall (fun result => (len (text result) <= 103)%nat)
      (embeddings response).
Proof.
  destruct (fst (generate_embeddings ticking_clock loaded_state long_request []))
    as [e | response] eqn:Hrun; [discriminate Hrun |].
  exists response. split; [reflexivity |].
  refine (Forall_impl _ _
            (embed_labels_bounded ticking_clock loaded_state long_request []
               response Hrun)).
  intros result [Hlen _]. exact Hlen.
Defined.

Lemma long_labels_collide_witness :
  truncate_label long_text = truncate_label (long_text ++ [98%N]).
Proof.
  assert (H1 : (100 < len long_text)%nat) by (cbv; lia).
  assert (H2 : (100 < len (long_text ++ [98%N]))%nat) by (cbv; lia).
  exact (proj2 (long_labels_collide long_text (long_text ++ [98%N]) H1 H2)
           eq_refl).
Defined.

Lemma similarity_failure_is_500_witness :
  fst (compute_similarity dot out_of_bounds one_row_state
         (lit "gift") (lit "present") [])
    = inl (mkHTTPException 500
             (lit "Similarity computation failed: index out of bounds")).
Proof.
  assert (Hlen : (len [[0.5%float; 0.5%float]] < 2)%nat) by (cbv; lia).
  exact (proj1 (proj2 (similarity_failure_is_500 dot out_of_bounds
                         one_row_state (lit "gift") (lit "present") []
                         one_row_model eq_refl eq_refl))
           [[0.5%float; 0.5%float]] eq_refl Hlen).
Defined.

Lemma similarity_errors_classified_witness :
  truth (model initial_state) = false /\
  fst (compute_similarity dot out_of_bounds initial_state
         (lit "gift") (lit "present") [])
    = inl (mkHTTPException 503 (lit "Model not loaded")).
Proof.
  destruct (similarity_errors_classified dot out_of_bounds initial_state
              (lit "gift") (lit "present") []
              (mkHTTPException 503 (lit "Model not loaded")) eq_refl)
    as [[Htruth _] | [Htruth _]].
  - split; [exact Htruth | reflexivity].
  - discriminate Htruth.
Defined.

Lemma similarity_rounded_after_interpretation_witness :
  exists d,
    fst (compute_similarity dot out_of_bounds near_boundary_state
           (lit "gift") (lit "present") []) = inr d /\
    value_get "similarity" d = Some (VFloat 0.8%float) /\
    value_get "interpretation" d = Some (VStr (lit "Very similar")).
Proof.
  destruct (similarity_rounded_after_interpretation dot out_of_bounds
              near_boundary_state (lit "gift") (lit "present") []
              near_boundary_model [[1%float]; [0.80004%float]]
              [1%float] [0.80004%float] 0.80004%float
              eq_refl eq_refl eq_refl eq_refl eq_refl eq_refl)
    as (d & Hrun & _ & _ & Hedge).
  exists d. split; [exact Hrun |]. exact (Hedge eq_refl eq_refl).
Defined.

Lemma similarity_of_nan_witness :
  exists d,
    fst (compute_similarity dot out_of_bounds nan_state
           (lit "gift") (lit "present") []) = inr d /\
    value_get "interpretation" d = Some (VStr (lit "Not very similar")).
Proof.
  exact (similarity_of_nan dot out_of_bounds nan_state
           (lit "gift") (lit "present") [] nan_model
           [[nan]; [1%float]] [nan] [1%float] nan
           eq_refl eq_refl eq_refl eq_refl eq_refl eq_refl eq_refl).
Defined.

Lemma lifespan_round_trip_witness :
  exists started,
    lifespan_startup load_length_model initial_state = inr started /\
    model started = Some length_model /\
    model_loaded (health_check started) = true /\
    lifespan_shutdown started = initial_state /\
    forall request h,
      fst (generate_embeddings ticking_clock (lifespan_shutdown started)
             request h)
        = inl (mkHTTPException 503 (lit "Model not loaded")).
Proof.
  exact (lifespan_round_trip ticking_clock load_length_model initial_state
           length_model eq_refl).
Defined.

Lemma endpoints_agree_on_constants_witness :
  exists response,
    fst (generate_embeddings ticking_clock loaded_state two_texts [])
      = inr response /\
    dimension response = embedding_dimension (health_check loaded_state) /\
    value_get "embedding_dimension" model_info = Some (VInt 384).
Proof.
  destruct (fst (generate_embeddings ticking_clock loaded_state two_texts []))
    as [e | response] eqn:Hrun; [discriminate Hrun |].
  destruct (endpoints_agree_on_constants ticking_clock loaded_state two_texts []
              response Hrun) as (Hdim & Hinfo & _).
  exists response. split; [reflexivity |]. split; [exact Hdim | exact Hinfo].
Defined.

Lemma startup_ignores_install_directory_witness :
  lifespan_startup load_from_install_directory initial_state
    = lifespan_startup load_nothing initial_state.
Proof.
  apply startup_ignores_install_directory.
  intros path Hpath. unfold load_from_install_directory, load_nothing.
  destruct (list_eq_dec N.eq_dec path MODEL_CACHE_DIR) as [Heq | _];
    [contradiction | reflexivity].
Defined.

Example install_good_run :
  install_model_on_server good_run =
    (None,
     install_banner
       ++ [Makedirs MODEL_CACHE_DIR true;
           Printed (lit "Downloading model from HuggingFace...");
           Download MODEL_NAME;
           Save MODEL_CACHE_DIR]
       ++ install_report).
Proof. reflexivity. Qed.

Example install_offline_run :
  install_model_on_server offline_run =
    (Some (Exception (lit "connection error")),
     install_banner
       ++ [Makedirs MODEL_CACHE_DIR true;
           Printed (lit "Downloading model from HuggingFace...");
           Download MODEL_NAME]).
Proof. reflexivity. Qed.
